(** * trakt.api.HttpClient: request dispatch and error mapping

    A shallow embedding of [trakt/api.py] (class [HttpClient]) and of the
    Python library functions it calls, followed by the properties of the
    dispatch pipeline: URL resolution, payload placement, the 204 short cut,
    the status-code registry, the response decoder and credential
    replacement. *)

From Stdlib Require Import ZArith NArith List Lia.
From Stdlib.Strings Require Import String Ascii Byte.
From Stdlib Require Import DecimalString.
From stdpp Require Import base decidable option list gmap.

Local Open Scope N_scope.

(** ** Python values *)

(** A Python [str] is the sequence of its Unicode code points. *)
Abbreviation pystr := (list N).

(** The code points of an ASCII literal. *)
Definition py (s : string) : pystr :=
  map N_of_ascii (list_ascii_of_string s).

(** The Python objects that travel through the client: request payloads and
    decoded JSON documents. Floats and objects that [json] cannot serialise are
    not represented; dictionaries keep insertion order and have [str] keys. *)
#[warnings="-register-all"]
Inductive PyVal : Type :=
| PyNone
| PyBool (b : bool)
| PyInt (n : Z)
| PyStr (s : pystr)
| PyList (items : list PyVal)
| PyDict (items : list (pystr * PyVal)).

(** [repr] of a Python [int]: decimal digits with a leading minus sign. *)
Definition int_repr (n : Z) : pystr :=
  py (NilZero.string_of_int (Z.to_int n)).

(** One lower-case hexadecimal digit. *)
Definition hex_digit (d : N) : N :=
  if d <? 10 then 48 + d else 87 + d.

(** ['\\u{0:04x}'.format(n)] *)
Definition u_escape (n : N) : pystr :=
  py "\u" ++ [hex_digit (N.land (N.shiftr n 12) 15);
              hex_digit (N.land (N.shiftr n 8) 15);
              hex_digit (N.land (N.shiftr n 4) 15);
              hex_digit (N.land n 15)].

(** [json.encoder.py_encode_basestring_ascii]: the replacement of one
    character. Printable ASCII other than the quote and the backslash stands
    for itself; the rest goes through [ESCAPE_DCT] or becomes a [\uXXXX]
    escape, a surrogate pair above the basic plane. *)
Definition escape_ascii_char (c : N) : pystr :=
  if c =? 92 then py "\\"
  else if c =? 34 then [92; 34]
  else if (32 <=? c) && (c <=? 126) then [c]
  else if c =? 8 then py "\b"
  else if c =? 12 then py "\f"
  else if c =? 10 then py "\n"
  else if c =? 13 then py "\r"
  else if c =? 9 then py "\t"
  else if c <? 65536 then u_escape c
  else
    let n := c - 65536 in
    let s1 := N.lor 55296 (N.land (N.shiftr n 10) 1023) in
    let s2 := N.lor 56320 (N.land n 1023) in
    u_escape s1 ++ u_escape s2.

Definition encode_basestring_ascii (s : pystr) : pystr :=
  [34] ++ concat (map escape_ascii_char s) ++ [34].

(** [sep.join(parts)] *)
Fixpoint join (sep : pystr) (parts : list pystr) : pystr :=
  match parts with
  | [] => []
  | [p] => p
  | p :: rest => p ++ sep ++ join sep rest
  end.

(** [json.dumps(obj)] with its default arguments: [ensure_ascii=True],
    separators [', '] and [': '], no indentation, keys in insertion order. *)
Fixpoint json_dumps (obj : PyVal) : pystr :=
  match obj with
  | PyNone => py "null"
  | PyBool true => py "true"
  | PyBool false => py "false"
  | PyInt n => int_repr n
  | PyStr s => encode_basestring_ascii s
  | PyList items =>
      py "[" ++ join (py ", ") (map json_dumps items) ++ py "]"
  | PyDict items =>
      py "{" ++
      join (py ", ")
           (map (fun kv => match kv with
                           | (k, v) => encode_basestring_ascii k ++ py ": " ++ json_dumps v
                           end) items)
      ++ py "}"
  end.

(** ** [bytes.decode('UTF-8', 'ignore')] *)

(** [IS_CONTINUATION_BYTE]: the byte is [10xxxxxx]. *)
Definition is_continuation (b : N) : bool :=
  (128 <=? b) && (b <=? 191).

(** CPython's UTF-8 decoder with the [ignore] error handler. A byte range
    reported as an error is skipped and decoding resumes right after it:
    an invalid start byte skips one byte, an invalid continuation byte skips
    the bytes of the sequence read so far (the offending byte is looked at
    again), and a sequence cut off by the end of the data is dropped.
    Overlong forms, surrogates and code points above U+10FFFF are invalid. *)
Fixpoint utf8_decode_ignore (s : list byte) : pystr :=
  match s with
  | [] => []
  | b0 :: s1 =>
    let ch := Byte.to_N b0 in
    if ch <? 128 then ch :: utf8_decode_ignore s1
    else if ch <? 194 then utf8_decode_ignore s1
    else if ch <? 224 then
      match s1 with
      | [] => []
      | b1 :: s2 =>
        let ch2 := Byte.to_N b1 in
        if negb (is_continuation ch2) then utf8_decode_ignore s1
        else (N.shiftl ch 6 + ch2 - (N.shiftl 192 6 + 128)) :: utf8_decode_ignore s2
      end
    else if ch <? 240 then
      match s1 with
      | [] => []
      | b1 :: s2 =>
        let ch2 := Byte.to_N b1 in
        if negb (is_continuation ch2)
           || (if ch2 <? 160 then ch =? 224 else ch =? 237)
        then utf8_decode_ignore s1
        else
          match s2 with
          | [] => []
          | b2 :: s3 =>
            let ch3 := Byte.to_N b2 in
            if negb (is_continuation ch3) then utf8_decode_ignore s2
            else (N.shiftl ch 12 + N.shiftl ch2 6 + ch3
                  - (N.shiftl 224 12 + N.shiftl 128 6 + 128))
                 :: utf8_decode_ignore s3
          end
      end
    else if ch <? 245 then
      match s1 with
      | [] => []
      | b1 :: s2 =>
        let ch2 := Byte.to_N b1 in
        if negb (is_continuation ch2)
           || (if ch2 <? 144 then ch =? 240 else ch =? 244)
        then utf8_decode_ignore s1
        else
          match s2 with
          | [] => []
          | b2 :: s3 =>
            let ch3 := Byte.to_N b2 in
            if negb (is_continuation ch3) then utf8_decode_ignore s2
            else
              match s3 with
              | [] => []
              | b3 :: s4 =>
                let ch4 := Byte.to_N b3 in
                if negb (is_continuation ch4) then utf8_decode_ignore s3
                else (N.shiftl ch 18 + N.shiftl ch2 12 + N.shiftl ch3 6 + ch4
                      - (N.shiftl 240 18 + N.shiftl 128 12 + N.shiftl 128 6 + 128))
                     :: utf8_decode_ignore s4
              end
          end
      end
    else utf8_decode_ignore s1
  end.

(** The bytes of an ASCII literal. *)
Definition ascii_bytes (s : string) : list byte :=
  map byte_of_ascii (list_ascii_of_string s).

(** *** Well-formed UTF-8, to measure the decoder against *)

(** The byte with value [n], for [n] below 256. *)
Definition byte_of (n : N) : byte :=
  match Byte.of_N n with
  | Some b => b
  | None => x00
  end.

(** A Unicode scalar value: a code point up to U+10FFFF outside the
    surrogate range. *)
Definition is_scalar (c : N) : bool :=
  (c <? 55296) || ((57344 <=? c) && (c <? 1114112)).

(** The UTF-8 form of one scalar value, one to four bytes. *)
Definition utf8_encode_char (c : N) : list byte :=
  if c <? 128 then [byte_of c]
  else if c <? 2048 then [byte_of (192 + c / 64); byte_of (128 + c mod 64)]
  else if c <? 65536 then
    [byte_of (224 + c / 4096); byte_of (128 + (c / 64) mod 64);
     byte_of (128 + c mod 64)]
  else
    [byte_of (240 + c / 262144); byte_of (128 + (c / 4096) mod 64);
     byte_of (128 + (c / 64) mod 64); byte_of (128 + c mod 64)].

(** [text.encode('utf-8')] for a text of scalar values. *)
Definition utf8_encode (text : pystr) : list byte :=
  concat (map utf8_encode_char text).

(** ** Responses and exception classes *)

(** What the client reads of a [requests.Response]. *)
Record Response : Type := mkResponse {
  status_code : Z;
  content : list byte
}.

(** [str(response)], as [requests] defines it. *)
Definition str_response (r : Response) : pystr :=
  py "<Response [" ++ int_repr (status_code r) ++ py "]>".

(** A [json.JSONDecodeError] and its [str]. *)
Record JSONDecodeError : Type := mkJSONDecodeError {
  jde_msg : pystr;
  jde_lineno : Z;
  jde_colno : Z;
  jde_pos : Z
}.

Definition str_JSONDecodeError (e : JSONDecodeError) : pystr :=
  jde_msg e ++ py ": line " ++ int_repr (jde_lineno e)
  ++ py " column " ++ int_repr (jde_colno e)
  ++ py " (char " ++ int_repr (jde_pos e) ++ py ")".

(** Any other Python exception, by the name of its class and its message. *)
Record PyException : Type := mkPyException {
  exc_class : pystr;
  exc_message : pystr
}.

(** The ways [json.loads] can fail: with a [JSONDecodeError], which is what
    [decode_response] catches, or with an exception of another class, such as
    the [RecursionError] of a document nested too deeply. *)
Inductive LoadsError : Type :=
| DecodeError (e : JSONDecodeError)
| OtherError (e : PyException).

(** An exception class of the module [trakt.errors]: its name, the HTTP
    status it declares in [http_code] and its [message]. *)
Record ErrorClass : Type := mkErrorClass {
  cls_name : pystr;
  http_code : Z;
  message : pystr
}.

(** The arguments of one [Session.request] call; [A] is the type of
    credentials. [rq_params] and [rq_data] are [None] when the keyword is not
    passed. *)
Record Request (A : Type) : Type := mkRequest {
  rq_method : pystr;
  rq_url : pystr;
  rq_headers : list (pystr * pystr);
  rq_auth : option A;
  rq_params : PyVal;
  rq_data : option pystr
}.

Arguments mkRequest {A}.
Arguments rq_method {A}.
Arguments rq_url {A}.
Arguments rq_headers {A}.
Arguments rq_auth {A}.
Arguments rq_params {A}.
Arguments rq_data {A}.

(** ** The collaborators of the client

    Objects the client receives or imports and whose code is not part of
    [trakt/api.py]: the credential, the [requests.Session] with the network
    behind it, [json.loads], and the declarations of [trakt.errors].
    [json.loads] returns the value of a document or raises: a
    [JSONDecodeError], or an exception of another class. *)
Class Externals : Type := {
  (** credential objects, passed to [requests] as [auth=] *)
  Auth : Type;
  (** [requests.Session] objects *)
  Session : Type;
  (** everything a transport call can read or change: cookie jars, the server *)
  Net : Type;
  (** exceptions raised inside [Session.request] *)
  TransportError : Type;
  (** [Session.request]: the response or a transport exception, and the
      network afterwards *)
  session_request :
    Session -> Request Auth -> Net -> (TransportError + Response) * Net;
  (** [json.loads] on a [str] *)
  json_loads : pystr -> LoadsError + PyVal;
  (** [errors.__all__] *)
  errors__all__ : list pystr;
  (** [getattr(errors, att)] *)
  errors_getattr : pystr -> ErrorClass
}.

(** ** The client object and the state of a run *)

Section Client.
Context `{Ext : Externals}.

(** The instance attributes of an [HttpClient]. *)
Record HttpClient : Type := mkHttpClient {
  base_url : pystr;
  session : Session;
  auth : option Auth
}.

(** [HttpClient.headers], the class attribute. *)
Definition headers : list (pystr * pystr) :=
  [(py "Content-Type", py "application/json"); (py "trakt-api-version", py "2")].

(** What a run does that can be observed from outside, in order: the debug
    records handed to the logger, the calls of [Session.request] and the texts
    handed to [json.loads]. *)
Inductive Event : Type :=
| LogDebug (fmt : pystr) (args : list pystr)
| SessionRequest (s : Session) (rq : Request Auth)
| JsonLoads (text : pystr).

(** The state a method runs in: the client object [self], the events so far
    and the network. *)
Record State : Type := mkState {
  self : HttpClient;
  events : list Event;
  net : Net
}.

(** The exceptions that leave the client. *)
Inductive Exc : Type :=
| TransportExc (e : TransportError)
| TraktException (cls : ErrorClass) (response : Response)
| BadResponseException (msg : pystr)
| OtherException (e : PyException).

Inductive Outcome (A : Type) : Type :=
| Return (a : A)
| Raise (e : Exc).

Arguments Return {A}.
Arguments Raise {A}.

(** A method body: from a state to a result or an exception, and a state. *)
Definition Run (A : Type) : Type := State -> Outcome A * State.

Definition ret {A} (a : A) : Run A := fun st => (Return a, st).

Definition raise {A} (e : Exc) : Run A := fun st => (Raise e, st).

Definition bind {A B} (m : Run A) (k : A -> Run B) : Run B :=
  fun st =>
    match m st with
    | (Return a, st') => k a st'
    | (Raise e, st') => (Raise e, st')
    end.

Definition emit (ev : Event) : Run unit :=
  fun st => (Return tt, mkState (self st) (events st ++ [ev]) (net st)).

Definition get_self : Run HttpClient := fun st => (Return (self st), st).

End Client.

Arguments Return {Ext A}.
Arguments Raise {Ext A}.

Declare Scope run_scope.
Delimit Scope run_scope with run.
Notation "x <- m ;; k" := (bind m (fun x => k))
  (at level 20, m at level 99, k at level 200) : run_scope.
Notation "m ;; k" := (bind m (fun _ => k))
  (at level 100, k at level 200, right associativity) : run_scope.

(** ** The methods of [HttpClient] *)

Section Methods.
Context `{Ext : Externals}.
Local Open Scope run_scope.

(** [logger.debug(fmt, *args)] *)
Definition log_debug (fmt : pystr) (args : list pystr) : Run unit :=
  emit (LogDebug fmt args).

(** [session.request(...)]: the call is recorded, the network moves on, and a
    transport exception propagates. *)
Definition call_session_request (s : Session) (rq : Request Auth) : Run Response :=
  fun st =>
    let evs := events st ++ [SessionRequest s rq] in
    match session_request s rq (net st) with
    | (inr response, n) => (Return response, mkState (self st) evs n)
    | (inl e, n) => (Raise (TransportExc e), mkState (self st) evs n)
    end.

(** [json.loads(text)] *)
Definition call_json_loads (text : pystr) : Run (LoadsError + PyVal) :=
  emit (JsonLoads text) ;; ret (json_loads text).

(** [__init__] *)
Definition HttpClient_init (base_url : pystr) (session : Session) : HttpClient :=
  mkHttpClient base_url session None.

(** The list [errs] of [error_map]: every name of [errors.__all__] except
    ['TraktException'], looked up in the module. *)
Definition errs : list ErrorClass :=
  map errors_getattr
      (filter (fun att => att <> py "TraktException") errors__all__).

(** [error_map]: [{err.http_code: err for err in errs}]. A dict comprehension
    stores the entries in order, a later one replacing an earlier one with the
    same key. The [lru_cache] only saves recomputation. *)
Definition error_map : gmap Z ErrorClass :=
  foldl (fun m err => <[http_code err := err]> m) ∅ errs.

(** [raise_if_needed] *)
Definition raise_if_needed (response : Response) : Run unit :=
  match error_map !! status_code response with
  | Some cls => raise (TraktException cls response)
  | None => ret tt
  end.

(** [decode_response]: the [except] clause names [JSONDecodeError] only, so
    an exception of another class leaves the method as it is. *)
Definition decode_response (response : Response) : Run PyVal :=
  r <- call_json_loads (utf8_decode_ignore (content response)) ;;
  match r with
  | inr v => ret v
  | inl (DecodeError e) =>
      raise (BadResponseException
               (py "Unable to parse JSON: " ++ str_JSONDecodeError e))
  | inl (OtherError e) => raise (OtherException e)
  end.

(** [request] *)
Definition request (method url : pystr) (data : PyVal) : Run PyVal :=
  c <- get_self ;;
  let url := base_url c ++ url in
  log_debug (py "REQUEST [%s] (%s)") [method; url] ;;
  response <-
    (if decide (method = py "get")
     then call_session_request (session c)
            (mkRequest method url headers (auth c) data None)
     else call_session_request (session c)
            (mkRequest method url headers (auth c) PyNone
                       (Some (json_dumps data)))) ;;
  log_debug (py "RESPONSE [%s] (%s): %s") [method; url; str_response response] ;;
  if (status_code response =? 204)%Z then ret PyNone
  else (raise_if_needed response ;; decode_response response).

(** [get] *)
Definition get (url : pystr) : Run PyVal :=
  request (py "get") url PyNone.

(** [delete]: the result of [request] is dropped and the method returns
    [None]. *)
Definition delete (url : pystr) : Run PyVal :=
  request (py "delete") url PyNone ;; ret PyNone.

(** [post] *)
Definition post (url : pystr) (data : PyVal) : Run PyVal :=
  request (py "post") url data.


(** [set_auth] *)
Definition set_auth (a : option Auth) : Run unit :=
  fun st =>
    (Return tt,
     mkState (mkHttpClient (base_url (self st)) (session (self st)) a)
             (events st) (net st)).

(** *** Reading a run *)

(** The [Session.request] calls among some events, in order. *)
Definition requests_of (evs : list Event) : list (Session * Request Auth) :=
  omap (fun ev => match ev with
                  | SessionRequest s rq => Some (s, rq)
                  | _ => None
                  end) evs.

(** The texts handed to [json.loads] among some events, in order. *)
Definition loads_of (evs : list Event) : list pystr :=
  omap (fun ev => match ev with
                  | JsonLoads text => Some text
                  | _ => None
                  end) evs.

(** The arguments [request] passes to [Session.request] for a client [c]:
    lines 58 and 60 of the source. *)
Definition sent_request (c : HttpClient) (method url : pystr) (data : PyVal)
  : Request Auth :=
  if decide (method = py "get")
  then mkRequest method (base_url c ++ url) headers (auth c) data None
  else mkRequest method (base_url c ++ url) headers (auth c) PyNone
                 (Some (json_dumps data)).

(** What the transport answers when [request] is called in state [st]. *)
Definition transport_answer (st : State) (method url : pystr) (data : PyVal)
  : (TransportError + Response) * Net :=
  session_request (session (self st))
                  (sent_request (self st) method url data) (net st).

(** The state after the transport call of [request] has returned and both
    debug records are written. *)
Definition after_response (st : State) (method url : pystr) (data : PyVal)
           (response : Response) (n : Net) : State :=
  mkState (self st)
          (events st ++
           [LogDebug (py "REQUEST [%s] (%s)") [method; base_url (self st) ++ url];
            SessionRequest (session (self st))
                           (sent_request (self st) method url data);
            LogDebug (py "RESPONSE [%s] (%s): %s")
                     [method; base_url (self st) ++ url; str_response response]])
          n.

End Methods.

(** ** A scripted instance

    Token strings as credentials, a single session, and a network that
    replays prepared answers in order, the way a mocked transport does. It
    lets the methods run on concrete inputs. *)

Module Scripted.

(** One prepared answer: a response, or the name of a transport exception. *)
Definition Answer : Type := (pystr + Response)%type.

(** The next prepared answer; a connection error once they are used up. *)
Definition replay (s : unit) (rq : Request pystr) (n : list Answer)
  : (pystr + Response) * list Answer :=
  match n with
  | [] => (inl (py "ConnectionError"), [])
  | a :: rest => (a, rest)
  end.

(** The documents the scripted decoder knows, with their values. *)
Definition known_documents : list (pystr * PyVal) :=
  [(py "null", PyNone);
   (py "true", PyBool true);
   (py "[]", PyList []);
   (py "{}", PyDict []);
   ([123; 34; 97; 34; 58; 32; 49; 125], PyDict [(py "a", PyInt 1)])].

(** A text of a hundred thousand or more opening brackets and nothing else:
    arrays nested deeper than the interpreter lets the parser recurse. *)
Definition too_deep (text : pystr) : bool :=
  forallb (N.eqb 91) text && (100000 <=? N.of_nat (length text)).

Definition RecursionError : PyException :=
  mkPyException
    (py "RecursionError")
    (py "maximum recursion depth exceeded while decoding a JSON array from a unicode string").

(** [json.loads] restricted to [known_documents]; a text that is [too_deep]
    raises [RecursionError], and any other text is reported as not starting
    with a JSON value. *)
Definition loads (text : pystr) : LoadsError + PyVal :=
  if too_deep text then inl (OtherError RecursionError)
  else
    match list_find (fun kv => fst kv = text) known_documents with
    | Some (_, (_, v)) => inr v
    | None => inl (DecodeError (mkJSONDecodeError (py "Expecting value") 1 1 0))
    end.

(** The base class declares no status of its own; [errs] leaves it out by
    name, so its [http_code] is never read. *)
Definition TraktException_cls : ErrorClass :=
  mkErrorClass (py "TraktException") 0 [].
Definition BadResponseException_cls : ErrorClass :=
  mkErrorClass (py "BadResponseException") (-1)
               (py "Bad Response - Response could not be parsed").
Definition NotFoundException_cls : ErrorClass :=
  mkErrorClass (py "NotFoundException") 404
               (py "Not Found - method exists, but no record found").
Definition ProcessException_cls : ErrorClass :=
  mkErrorClass (py "ProcessException") 422
               (py "Unprocessable Entity - validation errors").
Definition ValidationException_cls : ErrorClass :=
  mkErrorClass (py "ValidationException") 422
               (py "Unprocessable Entity - invalid payload").
Definition NoContentException_cls : ErrorClass :=
  mkErrorClass (py "NoContentException") 204 (py "No Content").

(** [getattr] on a module given by its classes. *)
Definition getattr_in (classes : list ErrorClass) (att : pystr) : ErrorClass :=
  match list_find (fun cls => cls_name cls = att) classes with
  | Some (_, cls) => cls
  | None => TraktException_cls
  end.

(** The collaborators for an [errors] module given by its classes, in the
    order of [__all__]. *)
Definition externals_with (classes : list ErrorClass) : Externals :=
  {| Auth := pystr;
     Session := unit;
     Net := list Answer;
     TransportError := pystr;
     session_request := replay;
     json_loads := loads;
     errors__all__ := map cls_name classes;
     errors_getattr := getattr_in classes |}.

(** An [errors] module with one class per status code. *)
Definition externals : Externals :=
  externals_with
    [TraktException_cls; BadResponseException_cls; NotFoundException_cls;
     ProcessException_cls].

(** An [errors] module in which two classes declare status 422. *)
Definition clashing : Externals :=
  externals_with
    [TraktException_cls; NotFoundException_cls; ProcessException_cls;
     ValidationException_cls].

(** An [errors] module in which a class declares status 204. *)
Definition with_204 : Externals :=
  externals_with
    [TraktException_cls; NoContentException_cls; NotFoundException_cls].

(** [BASE_URL] of [trakt/core.py]. *)
Definition BASE_URL : pystr := py "https://api.trakt.tv/".

(** A fresh client on [BASE_URL] facing the prepared answers. *)
Definition start (E : Externals) (s : @Session E) (n : @Net E) : @State E :=
  mkState (HttpClient_init BASE_URL s) [] n.

End Scripted.

(** ** Further readings of a run and of texts *)

Section Reading.
Context `{Ext : Externals}.

(** The debug records among some events, in order: format and arguments. *)
Definition logs_of (evs : list Event) : list (pystr * list pystr) :=
  omap (fun ev => match ev with
                  | LogDebug fmt args => Some (fmt, args)
                  | _ => None
                  end) evs.

End Reading.

(** A printable ASCII character: space to tilde. *)
Definition printable (c : N) : Prop := 32 <= c <= 126.

(** A byte that cannot start a UTF-8 sequence: a continuation byte, [C0],
    [C1], or [F5] and above. *)
Definition invalid_start (b : byte) : Prop :=
  128 <= Byte.to_N b < 194 \/ 245 <= Byte.to_N b.

(** * Properties *)

(** ** The UTF-8 decoder *)

Section Utf8.
Local Open Scope N_scope.

(** Division and remainder by a constant, for [lia]. *)
Ltac Zify.zify_post_hook ::= Z.to_euclidean_division_equations.

Lemma to_N_byte_of n : n < 256 -> Byte.to_N (byte_of n) = n.
Proof.
  intros H. unfold byte_of. destruct (Byte.of_N n) as [b |] eqn:E.
  - apply Byte.to_of_N. exact E.
  - apply Byte.of_N_None_iff in E. lia.
Qed.

(** Decide the comparisons of the goal that [lia] can decide. *)
Ltac settle_tests :=
  repeat match goal with
  | |- context [?a <? ?b] =>
      first [ rewrite (proj2 (N.ltb_lt a b)) by lia
            | rewrite (proj2 (N.ltb_ge a b)) by lia ]
  | |- context [?a <=? ?b] =>
      first [ rewrite (proj2 (N.leb_le a b)) by lia
            | rewrite (proj2 (N.leb_gt a b)) by lia ]
  | |- context [?a =? ?b] =>
      first [ rewrite (proj2 (N.eqb_eq a b)) by lia
            | rewrite (proj2 (N.eqb_neq a b)) by lia ]
  end; cbn [negb andb orb].

(** One step of the decoder on a non-empty input. *)
Lemma decode_cons b0 s1 :
  utf8_decode_ignore (b0 :: s1) =
    let ch := Byte.to_N b0 in
    if ch <? 128 then ch :: utf8_decode_ignore s1
    else if ch <? 194 then utf8_decode_ignore s1
    else if ch <? 224 then
      match s1 with
      | [] => []
      | b1 :: s2 =>
        let ch2 := Byte.to_N b1 in
        if negb (is_continuation ch2) then utf8_decode_ignore s1
        else (N.shiftl ch 6 + ch2 - (N.shiftl 192 6 + 128)) :: utf8_decode_ignore s2
      end
    else if ch <? 240 then
      match s1 with
      | [] => []
      | b1 :: s2 =>
        let ch2 := Byte.to_N b1 in
        if negb (is_continuation ch2)
           || (if ch2 <? 160 then ch =? 224 else ch =? 237)
        then utf8_decode_ignore s1
        else
          match s2 with
          | [] => []
          | b2 :: s3 =>
            let ch3 := Byte.to_N b2 in
            if negb (is_continuation ch3) then utf8_decode_ignore s2
            else (N.shiftl ch 12 + N.shiftl ch2 6 + ch3
                  - (N.shiftl 224 12 + N.shiftl 128 6 + 128))
                 :: utf8_decode_ignore s3
          end
      end
    else if ch <? 245 then
      match s1 with
      | [] => []
      | b1 :: s2 =>
        let ch2 := Byte.to_N b1 in
        if negb (is_continuation ch2)
           || (if ch2 <? 144 then ch =? 240 else ch =? 244)
        then utf8_decode_ignore s1
        else
          match s2 with
          | [] => []
          | b2 :: s3 =>
            let ch3 := Byte.to_N b2 in
            if negb (is_continuation ch3) then utf8_decode_ignore s2
            else
              match s3 with
              | [] => []
              | b3 :: s4 =>
                let ch4 := Byte.to_N b3 in
                if negb (is_continuation ch4) then utf8_decode_ignore s3
                else (N.shiftl ch 18 + N.shiftl ch2 12 + N.shiftl ch3 6 + ch4
                      - (N.shiftl 240 18 + N.shiftl 128 12 + N.shiftl 128 6 + 128))
                     :: utf8_decode_ignore s4
              end
          end
      end
    else utf8_decode_ignore s1.
Proof. destruct s1 as [| b1 [| b2 [| b3 s4]]]; reflexivity. Qed.

(** An ASCII byte stands for itself. *)
Lemma decode_one b0 rest :
  Byte.to_N b0 < 128 ->
  utf8_decode_ignore (b0 :: rest) = Byte.to_N b0 :: utf8_decode_ignore rest.
Proof. intros H. rewrite decode_cons. cbv zeta. settle_tests. reflexivity. Qed.

(** A byte that cannot start a sequence is dropped, and nothing more. *)
Lemma decode_invalid_start b0 rest :
  128 <= Byte.to_N b0 < 194 \/ 245 <= Byte.to_N b0 ->
  utf8_decode_ignore (b0 :: rest) = utf8_decode_ignore rest.
Proof. intros [H | H]; rewrite decode_cons; cbv zeta; settle_tests; reflexivity. Qed.

(** Well-formed sequences of two, three and four bytes. *)
Lemma decode_two b0 b1 rest :
  194 <= Byte.to_N b0 < 224 ->
  128 <= Byte.to_N b1 < 192 ->
  utf8_decode_ignore (b0 :: b1 :: rest)
  = ((Byte.to_N b0 - 192) * 64 + (Byte.to_N b1 - 128)) :: utf8_decode_ignore rest.
Proof.
  intros H0 H1. rewrite decode_cons. cbv zeta. unfold is_continuation.
  rewrite !N.shiftl_mul_pow2. change (2 ^ 6) with 64.
  settle_tests. f_equal. lia.
Qed.

Lemma decode_three b0 b1 b2 rest :
  224 <= Byte.to_N b0 < 240 ->
  128 <= Byte.to_N b1 < 192 ->
  128 <= Byte.to_N b2 < 192 ->
  (Byte.to_N b0 = 224 -> 160 <= Byte.to_N b1) ->
  (Byte.to_N b0 = 237 -> Byte.to_N b1 < 160) ->
  utf8_decode_ignore (b0 :: b1 :: b2 :: rest)
  = ((Byte.to_N b0 - 224) * 4096 + (Byte.to_N b1 - 128) * 64
     + (Byte.to_N b2 - 128)) :: utf8_decode_ignore rest.
Proof.
  intros H0 H1 H2 Hlow Hsur. rewrite decode_cons. cbv zeta. unfold is_continuation.
  rewrite !N.shiftl_mul_pow2. change (2 ^ 6) with 64. change (2 ^ 12) with 4096.
  destruct (N.ltb_spec (Byte.to_N b1) 160); settle_tests; f_equal; lia.
Qed.

Lemma decode_four b0 b1 b2 b3 rest :
  240 <= Byte.to_N b0 < 245 ->
  128 <= Byte.to_N b1 < 192 ->
  128 <= Byte.to_N b2 < 192 ->
  128 <= Byte.to_N b3 < 192 ->
  (Byte.to_N b0 = 240 -> 144 <= Byte.to_N b1) ->
  (Byte.to_N b0 = 244 -> Byte.to_N b1 < 144) ->
  utf8_decode_ignore (b0 :: b1 :: b2 :: b3 :: rest)
  = ((Byte.to_N b0 - 240) * 262144 + (Byte.to_N b1 - 128) * 4096
     + (Byte.to_N b2 - 128) * 64 + (Byte.to_N b3 - 128))
    :: utf8_decode_ignore rest.
Proof.
  intros H0 H1 H2 H3 Hlow Hhigh. rewrite decode_cons. cbv zeta. unfold is_continuation.
  rewrite !N.shiftl_mul_pow2.
  change (2 ^ 6) with 64. change (2 ^ 12) with 4096. change (2 ^ 18) with 262144.
  destruct (N.ltb_spec (Byte.to_N b1) 144); settle_tests; f_equal; lia.
Qed.

(** The decoder reads back the UTF-8 form of a scalar value and goes on with
    what follows it. *)
Lemma decode_encoded_char c rest :
  is_scalar c = true ->
  utf8_decode_ignore (utf8_encode_char c ++ rest) = c :: utf8_decode_ignore rest.
Proof.
  unfold is_scalar, utf8_encode_char. intros Hc.
  assert (Hs : c < 55296 \/ 57344 <= c < 1114112).
  { apply orb_true_iff in Hc as [Hc | Hc].
    - left. apply N.ltb_lt. exact Hc.
    - right. apply andb_true_iff in Hc as [H1 H2].
      apply N.leb_le in H1. apply N.ltb_lt in H2. lia. }
  clear Hc.
  destruct (N.ltb_spec c 128); [| destruct (N.ltb_spec c 2048); [| destruct (N.ltb_spec c 65536)]];
    cbn [app].
  - rewrite decode_one; rewrite to_N_byte_of by lia; [reflexivity | lia].
  - rewrite decode_two; rewrite ?to_N_byte_of by lia; [f_equal; lia | lia | lia].
  - rewrite decode_three; rewrite ?to_N_byte_of by lia; [f_equal; lia | lia ..].
  - rewrite decode_four; rewrite ?to_N_byte_of by lia; [f_equal; lia | lia ..].
Qed.

(** Well-formed UTF-8 is decoded to the text it encodes, before any further
    bytes. *)
Lemma decode_encoded (text : pystr) (rest : list byte) :
  Forall (fun c => is_scalar c = true) text ->
  utf8_decode_ignore (utf8_encode text ++ rest)
  = text ++ utf8_decode_ignore rest.
Proof.
  unfold utf8_encode. induction 1 as [| c text' Hc _ IH]; [reflexivity |].
  cbn [map concat]. rewrite <- app_assoc, decode_encoded_char by exact Hc.
  rewrite IH. reflexivity.
Qed.

Lemma is_scalar_true c :
  is_scalar c = true <-> c < 55296 \/ 57344 <= c < 1114112.
Proof.
  unfold is_scalar. rewrite orb_true_iff, andb_true_iff.
  rewrite N.ltb_lt, N.leb_le, N.ltb_lt. lia.
Qed.

(** Whatever the bytes, the decoder yields scalar values only: what is not
    well-formed UTF-8 leaves no trace in the text. *)
Lemma decode_scalars_bounded (n : nat) (s : list byte) :
  (length s <= n)%nat ->
  Forall (fun c => is_scalar c = true) (utf8_decode_ignore s).
Proof.
  revert s. induction n as [| n IH]; intros s Hlen.
  - destruct s; [constructor | cbn in Hlen; lia].
  - destruct s as [| b0 s1]; [constructor |].
    rewrite decode_cons. cbv zeta. unfold is_continuation.
    rewrite !N.shiftl_mul_pow2.
    change (2 ^ 6) with 64. change (2 ^ 12) with 4096. change (2 ^ 18) with 262144.
    cbn [length] in Hlen.
    repeat match goal with
    | |- context [if ?a <? ?b then _ else _] => destruct (N.ltb_spec a b)
    | |- context [?a <=? ?b] => destruct (N.leb_spec a b)
    | |- context [?a =? ?b] => destruct (N.eqb_spec a b)
    | |- context [match ?l with [] => _ | _ :: _ => _ end] =>
        destruct l; cbn [length] in Hlen
    | _ => progress cbn [negb andb orb]
    end;
    repeat match goal with
    | |- Forall _ [] => constructor
    | |- Forall _ (utf8_decode_ignore _) => apply IH; cbn [length]; lia
    | |- Forall _ (_ :: _) =>
        constructor;
        [apply is_scalar_true; rewrite ?N.shiftl_mul_pow2;
         change (2 ^ 6) with 64; change (2 ^ 12) with 4096; lia |]
    end.
Qed.

Lemma decode_scalars (s : list byte) :
  Forall (fun c => is_scalar c = true) (utf8_decode_ignore s).
Proof. apply (decode_scalars_bounded (length s)). lia. Qed.
End Utf8.

Section Dispatch.
Context `{Ext : Externals}.
Local Open Scope Z_scope.

(** ** Reading events *)

Lemma requests_of_app (evs1 evs2 : list Event) :
  requests_of (evs1 ++ evs2) = requests_of evs1 ++ requests_of evs2.
Proof. unfold requests_of. apply omap_app. Qed.

Lemma loads_of_app (evs1 evs2 : list Event) :
  loads_of (evs1 ++ evs2) = loads_of evs1 ++ loads_of evs2.
Proof. unfold loads_of. apply omap_app. Qed.

(** ** One run of [request], step by step *)

(** The request handed to the transport does not depend on which branch of
    the method test built it: [sent_request] collects both. *)
Lemma request_until_response (st : State) (method url : pystr) (data : PyVal) :
  request method url data st =
  match transport_answer st method url data with
  | (inl e, n) =>
      (Raise (TransportExc e),
       mkState (self st)
               (events st ++
                [LogDebug (py "REQUEST [%s] (%s)")
                          [method; base_url (self st) ++ url];
                 SessionRequest (session (self st))
                                (sent_request (self st) method url data)])
               n)
  | (inr response, n) =>
      let st' := after_response st method url data response n in
      if status_code response =? 204 then (Return PyNone, st')
      else bind (raise_if_needed response)
                (fun _ => decode_response response) st'
  end.
Proof.
  unfold request, transport_answer, after_response, sent_request.
  unfold bind at 1. unfold get_self.
  unfold bind at 1. unfold log_debug, emit. cbn [self events net].
  unfold bind at 1.
  destruct (decide (method = py "get")) as [Hget | Hother];
    unfold call_session_request; cbn [self events net];
    match goal with
    | |- context [session_request ?s ?rq ?n] =>
        destruct (session_request s rq n) as [[e | response] n']
    end; cbn [self events net];
    rewrite <- ?app_assoc; cbn [app]; try reflexivity;
    unfold bind at 1; cbn [self events net];
    rewrite <- ?app_assoc; cbn [app];
    destruct (status_code response =? 204); reflexivity.
Qed.

(** The decoder hands exactly one text to [json.loads] and touches nothing
    else. *)
Lemma decode_response_run (response : Response) (st : State) :
  decode_response response st =
  (match json_loads (utf8_decode_ignore (content response)) with
   | inr v => Return v
   | inl (DecodeError e) =>
       Raise (BadResponseException
                (py "Unable to parse JSON: " ++ str_JSONDecodeError e))
   | inl (OtherError e) => Raise (OtherException e)
   end,
   mkState (self st)
           (events st ++ [JsonLoads (utf8_decode_ignore (content response))])
           (net st)).
Proof.
  unfold decode_response, call_json_loads, bind, emit, ret, raise.
  cbn [self events net].
  destruct (json_loads (utf8_decode_ignore (content response))) as [[e | e] | v];
    reflexivity.
Qed.

Lemma loads_of_after_response st method url data response n :
  loads_of (events (after_response st method url data response n))
  = loads_of (events st).
Proof.
  unfold after_response. cbn [events]. rewrite loads_of_app. cbn.
  apply app_nil_r.
Qed.

Lemma requests_of_after_response st method url data response n :
  requests_of (events (after_response st method url data response n))
  = requests_of (events st)
    ++ [(session (self st), sent_request (self st) method url data)].
Proof.
  unfold after_response. cbn [events]. rewrite requests_of_app. reflexivity.
Qed.

(** Whatever the transport answers, [request] calls it once, with
    [sent_request], and leaves the client object alone. *)
Lemma request_sends_once (st : State) (method url : pystr) (data : PyVal) :
  requests_of (events (snd (request method url data st)))
  = requests_of (events st)
    ++ [(session (self st), sent_request (self st) method url data)]
  /\ self (snd (request method url data st)) = self st.
Proof.
  rewrite request_until_response.
  destruct (transport_answer st method url data) as [[e | response] n].
  - cbn [snd events self]. rewrite requests_of_app. split; reflexivity.
  - cbv zeta. destruct (status_code response =? 204).
    + cbn [snd]. rewrite requests_of_after_response. split; reflexivity.
    + unfold bind, raise_if_needed.
      destruct (error_map !! status_code response) as [cls |].
      * cbn [raise snd]. rewrite requests_of_after_response. split; reflexivity.
      * cbn [ret]. rewrite decode_response_run. cbn [snd events self].
        rewrite requests_of_app, requests_of_after_response. cbn [requests_of omap].
        rewrite app_nil_r. split; reflexivity.
Qed.

(** Every event of the state before a [request] is still there afterwards,
    in place: a run only appends. *)
Lemma request_appends (st : State) (method url : pystr) (data : PyVal) :
  exists evs, events (snd (request method url data st)) = events st ++ evs.
Proof.
  rewrite request_until_response.
  destruct (transport_answer st method url data) as [[e | response] n].
  - eexists. reflexivity.
  - cbv zeta. destruct (status_code response =? 204).
    + eexists. reflexivity.
    + unfold bind, raise_if_needed.
      destruct (error_map !! status_code response) as [cls |].
      * eexists. reflexivity.
      * cbn [ret]. rewrite decode_response_run. cbn [snd events].
        unfold after_response. cbn [events]. rewrite <- app_assoc.
        eexists. reflexivity.
Qed.

(** [delete] runs [request] and replaces a returned value by [None]. *)
Lemma delete_run (st : State) (url : pystr) :
  delete url st =
  match request (py "delete") url PyNone st with
  | (Return _, st') => (Return PyNone, st')
  | (Raise e, st') => (Raise e, st')
  end.
Proof.
  unfold delete, bind.
  destruct (request (py "delete") url PyNone st) as [[v | e] st']; reflexivity.
Qed.

Lemma delete_state (st : State) (url : pystr) :
  snd (delete url st) = snd (request (py "delete") url PyNone st).
Proof.
  rewrite delete_run.
  destruct (request (py "delete") url PyNone st) as [[v | e] st']; reflexivity.
Qed.

(** ** The status-code pipeline *)

(** C1. When the transport answers a call with a response whose status code
    is registered in [error_map] and is not 204, [request] raises the
    exception class registered for that code, built from the response, and
    nothing is handed to [json.loads]: the events of the run are the two debug
    records and the transport call. *)
Theorem registered_status_raises
        (st : State) (method url : pystr) (data : PyVal)
        (response : Response) (n : Net) (cls : ErrorClass) :
  transport_answer st method url data = (inr response, n) ->
  status_code response <> 204 ->
  error_map !! status_code response = Some cls ->
  request method url data st
  = (Raise (TraktException cls response),
     after_response st method url data response n)
  /\ loads_of (events (snd (request method url data st)))
     = loads_of (events st).
Proof.
  intros Hanswer Hstatus Hmap.
  assert (Hrun : request method url data st
                 = (Raise (TraktException cls response),
                    after_response st method url data response n)).
  { rewrite request_until_response, Hanswer. cbv zeta.
    apply Z.eqb_neq in Hstatus. rewrite Hstatus.
    unfold bind, raise_if_needed. rewrite Hmap. reflexivity. }
  split; [exact Hrun |].
  rewrite Hrun. cbn [snd]. apply loads_of_after_response.
Qed.

(** C2. When the transport answers a call with status 204, [request] returns
    [None] whatever the body holds and whatever [error_map] registers for
    204; nothing is handed to [json.loads] and no exception is raised. *)
Theorem no_content_returns_none
        (st : State) (method url : pystr) (data : PyVal)
        (response : Response) (n : Net) :
  transport_answer st method url data = (inr response, n) ->
  status_code response = 204 ->
  request method url data st
  = (Return PyNone, after_response st method url data response n)
  /\ loads_of (events (snd (request method url data st)))
     = loads_of (events st).
Proof.
  intros Hanswer Hstatus.
  assert (Hrun : request method url data st
                 = (Return PyNone,
                    after_response st method url data response n)).
  { rewrite request_until_response, Hanswer. cbv zeta.
    rewrite Hstatus. reflexivity. }
  split; [exact Hrun |].
  rewrite Hrun. cbn [snd]. apply loads_of_after_response.
Qed.


(** ** The response decoder *)

(** C4, as the code has it. [decode_response] decodes the body with
    [utf8_decode_ignore], which is defined on every byte sequence and keeps
    scalar values only, and hands that text to [json.loads]. It returns the
    value exactly when [json.loads] returns one. It raises exactly when
    [json.loads] raises: [BadResponseException] with the diagnostic in its
    message for a [JSONDecodeError], and for an exception of any other class
    that exception itself, not wrapped. *)
Theorem decode_response_wraps_decode_errors
        (response : Response) (st : State) :
  let text := utf8_decode_ignore (content response) in
  Forall (fun c => is_scalar c = true) text
  /\ loads_of (events (snd (decode_response response st)))
     = loads_of (events st) ++ [text]
  /\ (forall v, fst (decode_response response st) = Return v
                <-> json_loads text = inr v)
  /\ (forall exc,
        fst (decode_response response st) = Raise exc
        <-> (exists e, json_loads text = inl (DecodeError e)
                       /\ exc = BadResponseException
                                  (py "Unable to parse JSON: "
                                   ++ str_JSONDecodeError e))
            \/ (exists e, json_loads text = inl (OtherError e)
                          /\ exc = OtherException e)).
Proof.
  intros text. split; [apply decode_scalars |].
  rewrite decode_response_run. fold text. cbn [fst snd events].
  split; [rewrite loads_of_app; reflexivity |].
  destruct (json_loads text) as [[e | e] | v].
  - split.
    + intros v. split; intros H; discriminate H.
    + intros exc. split.
      * intros [= <-]. left. exists e. split; reflexivity.
      * intros [(e' & [= <-] & ->) | (e' & He' & _)];
          [reflexivity | discriminate He'].
  - split.
    + intros v. split; intros H; discriminate H.
    + intros exc. split.
      * intros [= <-]. right. exists e. split; reflexivity.
      * intros [(e' & He' & _) | (e' & [= <-] & ->)];
          [discriminate He' | reflexivity].
  - split.
    + intros v'. split; intros [= <-]; reflexivity.
    + intros exc. split.
      * intros H. discriminate H.
      * intros [(e' & He' & _) | (e' & He' & _)]; discriminate He'.
Qed.

(** ** The outgoing request *)

(** C5. A [get] call hands its payload to the transport as [params] and
    passes no [data]; a [post] or [put] call hands over [json.dumps] of the
    payload as [data] and passes no [params]. *)
Theorem payload_placement (st : State) (url : pystr) (data : PyVal) :
  requests_of (events (snd (request (py "get") url data st)))
  = requests_of (events st)
    ++ [(session (self st),
         mkRequest (py "get") (base_url (self st) ++ url) headers
                   (auth (self st)) data None)]
  /\ requests_of (events (snd (request (py "post") url data st)))
     = requests_of (events st)
       ++ [(session (self st),
            mkRequest (py "post") (base_url (self st) ++ url) headers
                      (auth (self st)) PyNone (Some (json_dumps data)))]
  /\ requests_of (events (snd (request (py "put") url data st)))
     = requests_of (events st)
       ++ [(session (self st),
            mkRequest (py "put") (base_url (self st) ++ url) headers
                      (auth (self st)) PyNone (Some (json_dumps data)))].
Proof.
  repeat split; apply request_sends_once.
Qed.

(** C7. The URL handed to the transport is [base_url] followed by the path
    argument, with nothing in between and neither part changed. *)
Theorem url_is_concatenation
        (st : State) (method url : pystr) (data : PyVal) :
  exists rq,
    requests_of (events (snd (request method url data st)))
    = requests_of (events st) ++ [(session (self st), rq)]
    /\ rq_url rq = base_url (self st) ++ url.
Proof.
  exists (sent_request (self st) method url data). split.
  - apply request_sends_once.
  - unfold sent_request. destruct (decide (method = py "get")); reflexivity.
Qed.

(** C10. A call with any method other than ['get'] and no payload sends the
    four characters [null] as its body, and so does every [delete]. *)
Theorem absent_payload_body_is_null (st : State) (method url : pystr) :
  method <> py "get" ->
  (exists rq,
     requests_of (events (snd (request method url PyNone st)))
     = requests_of (events st) ++ [(session (self st), rq)]
     /\ rq_data rq = Some (py "null"))
  /\ (exists rq,
        requests_of (events (snd (delete url st)))
        = requests_of (events st) ++ [(session (self st), rq)]
        /\ rq_data rq = Some (py "null"))
  /\ length (py "null") = 4%nat.
Proof.
  intros Hmethod. split; [| split].
  - exists (sent_request (self st) method url PyNone). split.
    + apply request_sends_once.
    + unfold sent_request. destruct (decide (method = py "get")) as [Hget |].
      * contradiction.
      * reflexivity.
  - exists (sent_request (self st) (py "delete") url PyNone). split.
    + rewrite delete_state. apply request_sends_once.
    + reflexivity.
  - reflexivity.
Qed.

(** C6, as the code has it. A [delete] call dispatches ['delete'] with the
    payload absent and passes no [params]; it returns [None] whenever the
    dispatch returns, whatever value was decoded, and raises what the dispatch
    raises. *)
Theorem delete_discards_result (st : State) (url : pystr) :
  (exists rq,
     requests_of (events (snd (delete url st)))
     = requests_of (events st) ++ [(session (self st), rq)]
     /\ rq = sent_request (self st) (py "delete") url PyNone
     /\ rq_method rq = py "delete"
     /\ rq_params rq = PyNone)
  /\ delete url st
     = match request (py "delete") url PyNone st with
       | (Return _, st') => (Return PyNone, st')
       | (Raise e, st') => (Raise e, st')
       end.
Proof.
  split.
  - exists (sent_request (self st) (py "delete") url PyNone).
    split; [| repeat split].
    rewrite delete_state. apply request_sends_once.
  - apply delete_run.
Qed.

(** ** Replacing the credential *)

(** C9. Between two calls, [set_auth] changes only the [auth] attribute. The
    first call has sent its request with the credential the client held then,
    the second sends its own with the new one, and the events of the first
    call, its request among them, stay as they were. *)
Theorem set_auth_between_calls
        (st0 : State) (m1 u1 : pystr) (d1 : PyVal) (a : option Auth)
        (m2 u2 : pystr) (d2 : PyVal) :
  let st1 := snd (request m1 u1 d1 st0) in
  let st2 := snd (set_auth a st1) in
  let st3 := snd (request m2 u2 d2 st2) in
  let rq1 := sent_request (self st0) m1 u1 d1 in
  let rq2 := sent_request (self st2) m2 u2 d2 in
  requests_of (events st1)
  = requests_of (events st0) ++ [(session (self st0), rq1)]
  /\ requests_of (events st3)
     = requests_of (events st0)
       ++ [(session (self st0), rq1); (session (self st0), rq2)]
  /\ (exists evs, events st3 = events st1 ++ evs)
  /\ rq_auth rq1 = auth (self st0)
  /\ rq_auth rq2 = a
  /\ base_url (self st2) = base_url (self st1)
  /\ session (self st2) = session (self st1)
  /\ auth (self st2) = a
  /\ events st2 = events st1
  /\ net st2 = net st1
  /\ rq_headers rq1 = headers
  /\ rq_headers rq2 = headers.
Proof.
  intros st1 st2 st3 rq1 rq2.
  destruct (request_sends_once st0 m1 u1 d1) as [Hsent1 Hself1].
  fold st1 in Hsent1, Hself1. fold rq1 in Hsent1.
  destruct (request_sends_once st2 m2 u2 d2) as [Hsent2 _].
  fold st3 in Hsent2. fold rq2 in Hsent2.
  assert (Hev2 : events st2 = events st1) by reflexivity.
  assert (Hsess2 : session (self st2) = session (self st0)).
  { unfold st2. cbn. rewrite Hself1. reflexivity. }
  repeat split.
  - exact Hsent1.
  - rewrite Hsent2, Hev2, Hsent1, Hsess2, <- app_assoc. reflexivity.
  - destruct (request_appends st2 m2 u2 d2) as [evs Hevs].
    exists evs. fold st3 in Hevs. rewrite Hevs, Hev2. reflexivity.
  - unfold rq1, sent_request. destruct (decide (m1 = py "get")); reflexivity.
  - unfold rq2, sent_request. destruct (decide (m2 = py "get")); reflexivity.
  - unfold rq1, sent_request. destruct (decide (m1 = py "get")); reflexivity.
  - unfold rq2, sent_request. destruct (decide (m2 = py "get")); reflexivity.
Qed.

End Dispatch.

(** ** The registry of exception classes *)

Section Registry.
Context `{Ext : Externals}.
Local Open Scope Z_scope.

(** Storing entries in order keeps, for each key, the last entry with it. *)
Lemma stored_last_wins (l : list ErrorClass) (code : Z) (cls : ErrorClass) :
  foldl (fun m err => <[http_code err := err]> m) (∅ : gmap Z ErrorClass) l
    !! code = Some cls
  <-> exists before after,
        l = before ++ cls :: after
        /\ http_code cls = code
        /\ Forall (fun later => http_code later <> code) after.
Proof.
  revert cls. induction l as [| x l' IH] using rev_ind; intros cls.
  - cbn. rewrite lookup_empty. split; [discriminate |].
    intros (before & after & Heq & _). destruct before; discriminate Heq.
  - rewrite foldl_app. cbn [foldl].
    destruct (decide (http_code x = code)) as [Hx | Hx].
    + rewrite Hx, lookup_insert_eq. split.
      * intros [= ->]. exists l', []. repeat split; [assumption | constructor].
      * intros (before & after & Heq & Hcode & Hafter).
        destruct after as [| y after' _] using rev_ind.
        -- apply app_inj_tail in Heq as [_ ->]. reflexivity.
        -- rewrite app_comm_cons, app_assoc in Heq.
           apply app_inj_tail in Heq as [_ ->].
           apply Forall_app in Hafter as [_ Hy].
           inversion Hy; contradiction.
    + rewrite lookup_insert_ne by exact Hx. rewrite IH. split.
      * intros (before & after & -> & Hcode & Hafter).
        exists before, (after ++ [x]). repeat split.
        -- rewrite <- app_assoc. reflexivity.
        -- assumption.
        -- apply Forall_app. split; [assumption |].
           constructor; [assumption | constructor].
      * intros (before & after & Heq & Hcode & Hafter).
        destruct after as [| y after' _] using rev_ind.
        -- apply app_inj_tail in Heq as [_ ->]. contradiction.
        -- rewrite app_comm_cons, app_assoc in Heq.
           apply app_inj_tail in Heq as [-> ->].
           apply Forall_app in Hafter as [Hafter _].
           exists before, after'. repeat split; assumption.
Qed.

(** C8, as the code has it. Building [error_map] checks nothing and always
    succeeds: a status code is mapped to a class exactly when that class is
    the last one of [errs] declaring the code, so of several classes with one
    code only the last is kept. *)
Theorem error_map_keeps_last_declared (code : Z) (cls : ErrorClass) :
  error_map !! code = Some cls
  <-> exists before after,
        errs = before ++ cls :: after
        /\ http_code cls = code
        /\ Forall (fun later => http_code later <> code) after.
Proof. unfold error_map. apply stored_last_wins. Qed.

(** When the declared codes are pairwise distinct nothing is lost: every
    class of [errs] is found under its own code. *)
Lemma error_map_complete_when_distinct (cls : ErrorClass) :
  NoDup (map http_code errs) ->
  In cls errs ->
  error_map !! http_code cls = Some cls.
Proof.
  intros Hnodup Hin. unfold error_map. apply stored_last_wins.
  apply in_split in Hin as (before & after & Heq).
  exists before, after. repeat split; [assumption |].
  rewrite Heq, map_app in Hnodup. cbn [map] in Hnodup.
  apply NoDup_app in Hnodup as (_ & _ & Hnodup).
  apply NoDup_cons in Hnodup as [Hnotin _].
  apply Forall_forall. intros later Hlater Hcode.
  apply Hnotin. rewrite <- Hcode.
  apply list_elem_of_In, in_map, list_elem_of_In. exact Hlater.
Qed.

End Registry.

(** * Runs on the scripted instance *)

Section ScriptedRuns.
Import Scripted.
Local Open Scope Z_scope.

(** [get] with the payload [{"page": 2}] passes it as [params]; [post] with
    the same payload sends it as the body text. *)
Example get_page_as_params :
  requests_of
    (events (snd (@request externals (py "get") (py "movies/popular")
                           (PyDict [(py "page", PyInt 2)])
                           (start externals tt []))))
  = [(tt, mkRequest (py "get") (py "https://api.trakt.tv/movies/popular")
                    headers None (PyDict [(py "page", PyInt 2)]) None)].
Proof. vm_compute. reflexivity. Qed.

Example post_page_as_body :
  requests_of
    (events (snd (@post externals (py "movies/popular")
                        (PyDict [(py "page", PyInt 2)])
                        (start externals tt []))))
  = [(tt, mkRequest (py "post") (py "https://api.trakt.tv/movies/popular")
                    headers None PyNone
                    (Some ([123; 34] ++ py "page" ++ [34] ++ py ": 2}")%N))].
Proof. vm_compute. reflexivity. Qed.

(** A 200 response with the body [{"a": 1}] is decoded to the dictionary. *)
Example get_decodes_object :
  fst (@get externals (py "users/settings")
            (start externals tt
                   [inr (mkResponse 200 [x7b; x22; x61; x22; x3a; x20; x31; x7d])]))
  = Return (PyDict [(py "a", PyInt 1)]).
Proof. vm_compute. reflexivity. Qed.

(** A 200 response whose body is not JSON raises [BadResponseException] with
    the diagnostic of [json.loads]. *)
Example get_not_json :
  fst (@get externals (py "users/settings")
            (start externals tt [inr (mkResponse 200 (ascii_bytes "not json"))]))
  = Raise (BadResponseException
             (py "Unable to parse JSON: Expecting value: line 1 column 1 (char 0)")).
Proof. vm_compute. reflexivity. Qed.

(** Bytes that are not UTF-8 around and inside a document are dropped before
    it is parsed. *)
Example get_drops_undecodable_bytes :
  fst (@get externals (py "users/settings")
            (start externals tt
                   [inr (mkResponse 200 [xff; x7b; xc0; xe2; x82; x7d; xf5])]))
  = Return (PyDict []).
Proof. vm_compute. reflexivity. Qed.

(** With no answer prepared the transport raises, and the exception leaves
    [request] as it is, after the call was made. *)
Example get_transport_error :
  let out := @get externals (py "users/settings") (start externals tt []) in
  fst out = Raise (@TransportExc externals (py "ConnectionError"))
  /\ requests_of (events (snd out))
     = [(tt, mkRequest (py "get") (py "https://api.trakt.tv/users/settings")
                       headers None PyNone None)]
  /\ loads_of (events (snd out)) = [].
Proof. vm_compute. repeat split. Qed.

(** A [get] answered with 404 raises [NotFoundException] and decodes
    nothing. *)
Lemma registered_status_raises_witness :
  let st := start externals tt [inr (mkResponse 404 (ascii_bytes "Not Found"))] in
  let response := mkResponse 404 (ascii_bytes "Not Found") in
  @transport_answer externals st (py "get") (py "movies/missing") PyNone
  = (inr response, [])
  /\ status_code response <> 204
  /\ @error_map externals !! status_code response = Some NotFoundException_cls
  /\ @request externals (py "get") (py "movies/missing") PyNone st
     = (Raise (TraktException NotFoundException_cls response),
        @after_response externals st (py "get") (py "movies/missing") PyNone
                        response [])
  /\ loads_of (events (snd (@request externals (py "get") (py "movies/missing")
                                     PyNone st)))
     = loads_of (events st).
Proof.
  intros st response.
  assert (H1 : @transport_answer externals st (py "get") (py "movies/missing")
                                 PyNone = (inr response, []))
    by reflexivity.
  assert (H2 : status_code response <> 204) by (cbn; lia).
  assert (H3 : @error_map externals !! status_code response
               = Some NotFoundException_cls)
    by (vm_compute; reflexivity).
  split; [exact H1 |]. split; [exact H2 |]. split; [exact H3 |].
  exact (@registered_status_raises externals st (py "get") (py "movies/missing")
           PyNone response [] NotFoundException_cls H1 H2 H3).
Defined.

(** A [delete] answered with 204 and a body that is not empty returns
    [None], although this [errors] module registers a class for 204. *)
Lemma no_content_returns_none_witness :
  let response := mkResponse 204 (ascii_bytes "leftover") in
  let st := start with_204 tt [inr response] in
  @error_map with_204 !! 204 = Some NoContentException_cls
  /\ @transport_answer with_204 st (py "delete") (py "sync/history/1") PyNone
     = (inr response, [])
  /\ status_code response = 204
  /\ @request with_204 (py "delete") (py "sync/history/1") PyNone st
     = (Return PyNone,
        @after_response with_204 st (py "delete") (py "sync/history/1") PyNone
                        response [])
  /\ loads_of (events (snd (@request with_204 (py "delete")
                                     (py "sync/history/1") PyNone st)))
     = loads_of (events st).
Proof.
  intros response st.
  assert (H1 : @transport_answer with_204 st (py "delete")
                                 (py "sync/history/1") PyNone
               = (inr response, []))
    by reflexivity.
  assert (H2 : status_code response = 204) by reflexivity.
  split; [vm_compute; reflexivity |]. split; [exact H1 |]. split; [exact H2 |].
  exact (@no_content_returns_none with_204 st (py "delete")
           (py "sync/history/1") PyNone response [] H1 H2).
Defined.


(** A [post] without payload sends [null]. *)
Lemma absent_payload_body_is_null_witness :
  let st := start externals tt [inr (mkResponse 201 (ascii_bytes "{}"))] in
  py "post" <> py "get"
  /\ ((exists rq,
         requests_of (events (snd (@request externals (py "post")
                                            (py "checkin") PyNone st)))
         = requests_of (events st) ++ [(session (self st), rq)]
         /\ rq_data rq = Some (py "null"))
      /\ (exists rq,
            requests_of (events (snd (@delete externals (py "checkin") st)))
            = requests_of (events st) ++ [(session (self st), rq)]
            /\ rq_data rq = Some (py "null"))
      /\ length (py "null") = 4%nat).
Proof.
  intros st.
  assert (H1 : py "post" <> py "get") by (vm_compute; discriminate).
  split; [exact H1 |].
  exact (@absent_payload_body_is_null externals st (py "post") (py "checkin") H1).
Defined.

(** C6 fails as stated. A [delete] answered with 404 has sent the body
    [null], and it raises [NotFoundException] instead of returning [None]. *)
Lemma delete_no_body_counterexample :
  let response := mkResponse 404 [] in
  let st := start externals tt [inr response] in
  let url := py "users/me/lists/1" in
  requests_of (events (snd (@delete externals url st)))
  = [(tt, mkRequest (py "delete") (BASE_URL ++ url) headers None
                    PyNone (Some (py "null")))]
  /\ fst (@delete externals url st)
     = Raise (TraktException NotFoundException_cls response)
  /\ ~ ((forall s rq,
           In (s, rq) (requests_of (events (snd (@delete externals url st)))) ->
           rq_data rq = None)
        /\ fst (@delete externals url st) = Return PyNone).
Proof.
  intros response st url.
  assert (Hsent : requests_of (events (snd (@delete externals url st)))
                  = [(tt, mkRequest (py "delete") (BASE_URL ++ url)
                                    headers None PyNone
                                    (Some (py "null")))])
    by (vm_compute; reflexivity).
  assert (Hout : fst (@delete externals url st)
                 = Raise (TraktException NotFoundException_cls response))
    by (vm_compute; reflexivity).
  split; [exact Hsent |]. split; [exact Hout |].
  intros [Hbody _].
  specialize (Hbody tt _ ltac:(rewrite Hsent; left; reflexivity)).
  discriminate Hbody.
Qed.

(** C8 fails as stated. In a module where [ProcessException] and
    [ValidationException] both declare 422, [error_map] is built all the same:
    it holds two entries, 422 is mapped to the later class and the earlier one
    is found under no code. *)
Lemma error_map_collision_counterexample :
  In ProcessException_cls (@errs clashing)
  /\ In ValidationException_cls (@errs clashing)
  /\ ProcessException_cls <> ValidationException_cls
  /\ http_code ProcessException_cls = http_code ValidationException_cls
  /\ ~ NoDup (map http_code (@errs clashing))
  /\ @error_map clashing
     = <[422 := ValidationException_cls]>
         (<[404 := NotFoundException_cls]> ∅)
  /\ (forall code, @error_map clashing !! code <> Some ProcessException_cls).
Proof.
  assert (Hmap : @error_map clashing
                 = <[422 := ValidationException_cls]>
                     (<[404 := NotFoundException_cls]> ∅))
    by (vm_compute; reflexivity).
  split; [vm_compute; tauto |]. split; [vm_compute; tauto |].
  split; [discriminate |]. split; [reflexivity |].
  split.
  - change (map http_code (@errs clashing)) with [404; 422; 422].
    intros Hnodup. apply NoDup_cons in Hnodup as [_ Hnodup].
    apply NoDup_cons in Hnodup as [Hnotin _].
    apply Hnotin. left.
  - split; [exact Hmap |].
    intros code Hcode. rewrite Hmap in Hcode.
    destruct (decide (code = 422)) as [-> | H422].
    + rewrite lookup_insert_eq in Hcode. discriminate Hcode.
    + rewrite lookup_insert_ne in Hcode by congruence.
      destruct (decide (code = 404)) as [-> | H404].
      * rewrite lookup_insert_eq in Hcode. discriminate Hcode.
      * rewrite lookup_insert_ne, lookup_empty in Hcode by congruence.
        discriminate Hcode.
Qed.

(** Opening brackets alone are ASCII: the decoder leaves them as they
    are. *)
Lemma decode_brackets (n : nat) :
  utf8_decode_ignore (repeat x5b n) = repeat 91%N n.
Proof.
  induction n as [| n IH]; [reflexivity |].
  cbn [repeat]. rewrite decode_one by (cbn; lia). rewrite IH. reflexivity.
Qed.

Lemma too_deep_brackets (n : nat) :
  (100000 <= N.of_nat n)%N -> too_deep (repeat 91%N n) = true.
Proof.
  intros Hn. unfold too_deep. apply andb_true_iff. split.
  - induction n as [| n' IH]; [reflexivity |]. clear Hn IH.
    induction n' as [| n'' IH]; [reflexivity |]. exact IH.
  - rewrite repeat_length. apply N.leb_le. exact Hn.
Qed.

(** C4 fails as stated. A body of a hundred thousand opening brackets is
    decoded without loss, and [json.loads] raises [RecursionError] on it;
    [decode_response] raises that exception and no [BadResponseException]. *)
Lemma decode_response_not_only_bad_response_counterexample :
  let response := mkResponse 200 (repeat x5b (N.to_nat 100000)) in
  let st := start externals tt [] in
  fst (@decode_response externals response st)
  = Raise (OtherException RecursionError)
  /\ ~ (forall exc,
          fst (@decode_response externals response st) = Raise exc ->
          exists msg, exc = BadResponseException msg).
Proof.
  intros response st.
  assert (Hout : fst (@decode_response externals response st)
                 = Raise (OtherException RecursionError)).
  { rewrite decode_response_run. cbn [fst content response].
    rewrite decode_brackets.
    change (@json_loads externals) with loads. unfold loads.
    rewrite too_deep_brackets; [reflexivity |].
    rewrite N2Nat.id. lia. }
  split; [exact Hout |].
  intros Honly. destruct (Honly _ Hout) as [msg Hmsg]. discriminate Hmsg.
Qed.

End ScriptedRuns.

(** * Further properties *)

(** ** The text of a request body *)

Section JsonText.

(** Prove a property of each element of a list that is written out. *)
Ltac each tac :=
  repeat (apply List.Forall_cons; [tac |]); try apply List.Forall_nil.

Ltac printable_literal := cbn; each ltac:(unfold printable; lia).

Lemma PyVal_nested_ind (P : PyVal -> Prop) :
  P PyNone ->
  (forall b, P (PyBool b)) ->
  (forall n, P (PyInt n)) ->
  (forall s, P (PyStr s)) ->
  (forall items, Forall P items -> P (PyList items)) ->
  (forall items, Forall (fun kv => P (snd kv)) items -> P (PyDict items)) ->
  forall v, P v.
Proof.
  intros HNone HBool HInt HStr HList HDict.
  fix IH 1. intros [| b | n | s | items | items].
  - exact HNone.
  - apply HBool.
  - apply HInt.
  - apply HStr.
  - apply HList.
    refine ((fix go (l : list PyVal) : Forall P l :=
               match l with
               | [] => @List.Forall_nil _ P
               | x :: l' => @List.Forall_cons _ P x l' (IH x) (go l')
               end) items).
  - apply HDict.
    refine ((fix go (l : list (pystr * PyVal)) : Forall (fun kv => P (snd kv)) l :=
               match l with
               | [] => @List.Forall_nil _ _
               | kv :: l' => @List.Forall_cons _ _ kv l' (IH (snd kv)) (go l')
               end) items).
Qed.

Lemma printable_uint (u : Decimal.uint) :
  Forall printable (py (NilEmpty.string_of_uint u)).
Proof.
  induction u; cbn; constructor; try assumption; unfold printable; lia.
Qed.

Lemma printable_int_repr (n : Z) : Forall printable (int_repr n).
Proof.
  unfold int_repr, NilZero.string_of_int, NilZero.string_of_uint.
  destruct (Z.to_int n) as [u | u].
  - destruct u; try apply printable_uint.
    cbn. constructor; [unfold printable; lia | constructor].
  - change (py (String "-" ?s)) with (45 :: py s).
    constructor; [unfold printable; lia |].
    destruct u; try apply printable_uint.
    cbn. constructor; [unfold printable; lia | constructor].
Qed.

Lemma printable_hex_digit (d : N) : d < 16 -> printable (hex_digit d).
Proof.
  intros Hd. unfold hex_digit, printable.
  destruct (N.ltb_spec d 10); lia.
Qed.

Lemma land_15_bound (n : N) : N.land n 15 < 16.
Proof.
  change 15 with (N.ones 4). rewrite N.land_ones.
  apply N.mod_lt. discriminate.
Qed.

Lemma printable_u_escape (n : N) : Forall printable (u_escape n).
Proof.
  unfold u_escape. apply Forall_app. split.
  - printable_literal.
  - each ltac:(apply printable_hex_digit, land_15_bound).
Qed.

Lemma printable_escape_ascii_char (c : N) :
  Forall printable (escape_ascii_char c).
Proof.
  unfold escape_ascii_char.
  repeat match goal with
  | |- context [if ?a =? ?b then _ else _] => destruct (N.eqb_spec a b)
  | |- context [if ?a <? ?b then _ else _] => destruct (N.ltb_spec a b)
  | |- context [if (?a <=? ?b) && (?c <=? ?d) then _ else _] =>
      destruct (N.leb_spec a b); destruct (N.leb_spec c d); cbn [andb]
  end;
  try (apply printable_u_escape);
  try (apply Forall_app; split; apply printable_u_escape);
  printable_literal.
Qed.

Lemma printable_encode_basestring_ascii (s : pystr) :
  Forall printable (encode_basestring_ascii s).
Proof.
  unfold encode_basestring_ascii.
  apply Forall_app. split; [printable_literal |].
  apply Forall_app. split; [| printable_literal].
  induction s as [| c s IH]; cbn [map concat]; [constructor |].
  apply Forall_app. split; [apply printable_escape_ascii_char | exact IH].
Qed.

Lemma printable_join (sep : pystr) (parts : list pystr) :
  Forall printable sep ->
  Forall (Forall printable) parts ->
  Forall printable (join sep parts).
Proof.
  intros Hsep. induction 1 as [| p rest Hp Hrest IH]; [constructor |].
  cbn [join]. destruct rest as [| q rest']; [exact Hp |].
  apply Forall_app. split; [exact Hp |].
  apply Forall_app. split; [exact Hsep | exact IH].
Qed.

(** [json.dumps] writes printable ASCII only. *)
Lemma printable_json_dumps (v : PyVal) : Forall printable (json_dumps v).
Proof.
  induction v as [| b | n | s | items IH | items IH] using PyVal_nested_ind.
  - printable_literal.
  - destruct b; printable_literal.
  - apply printable_int_repr.
  - apply printable_encode_basestring_ascii.
  - cbn [json_dumps]. apply Forall_app. split; [printable_literal |].
    apply Forall_app. split; [| printable_literal].
    apply printable_join; [printable_literal |].
    induction IH; cbn [map]; constructor; assumption.
  - cbn [json_dumps]. apply Forall_app. split; [printable_literal |].
    apply Forall_app. split; [| printable_literal].
    apply printable_join; [printable_literal |].
    induction IH as [| [k v] rest Hv _ IHrest]; cbn [map]; constructor; [| assumption].
    apply Forall_app. split; [apply printable_encode_basestring_ascii |].
    apply Forall_app. split; [printable_literal | exact Hv].
Qed.

Lemma uint_text_nonempty (u : Decimal.uint) :
  NilZero.string_of_uint u <> EmptyString.
Proof. destruct u; discriminate. Qed.

(** [json.dumps] never writes the empty text. *)
Lemma json_dumps_nonempty (v : PyVal) : json_dumps v <> [].
Proof.
  destruct v as [| [|] | n | s | items | items]; try discriminate.
  cbn [json_dumps]. unfold int_repr, NilZero.string_of_int.
  destruct (Z.to_int n) as [u | u]; [| discriminate].
  pose proof (uint_text_nonempty u) as Hu.
  destruct (NilZero.string_of_uint u); [contradiction | discriminate].
Qed.
End JsonText.

(** ** More on one run of [request] *)

Section MoreDispatch.
Context `{Ext : Externals}.
Local Open Scope Z_scope.

Lemma logs_of_app (evs1 evs2 : list Event) :
  logs_of (evs1 ++ evs2) = logs_of evs1 ++ logs_of evs2.
Proof. unfold logs_of. apply omap_app. Qed.

(** After the transport has answered, what is left of [request] writes no
    debug record and calls the transport no more. *)
Lemma request_tail_quiet (response : Response) (st' : State) :
  let out := (if status_code response =? 204 then (Return PyNone, st')
              else bind (raise_if_needed response)
                        (fun _ => decode_response response) st') in
  logs_of (events (snd out)) = logs_of (events st')
  /\ requests_of (events (snd out)) = requests_of (events st')
  /\ self (snd out) = self st'
  /\ net (snd out) = net st'.
Proof.
  cbv zeta. destruct (status_code response =? 204); [repeat split |].
  unfold bind, raise_if_needed.
  destruct (error_map !! status_code response) as [cls |]; [repeat split |].
  cbn [ret]. rewrite decode_response_run. cbn [snd events self net].
  rewrite logs_of_app, requests_of_app. cbn. rewrite !app_nil_r.
  repeat split.
Qed.

(** X1. When the transport raises, [request] raises that same exception,
    unwrapped. Only the REQUEST debug record has been written, nothing was
    handed to [json.loads], and the network is as the transport left it. *)
Theorem transport_error_propagates
        (st : State) (method url : pystr) (data : PyVal)
        (e : TransportError) (n : Net) :
  transport_answer st method url data = (inl e, n) ->
  fst (request method url data st) = Raise (TransportExc e)
  /\ logs_of (events (snd (request method url data st)))
     = logs_of (events st)
       ++ [(py "REQUEST [%s] (%s)", [method; base_url (self st) ++ url])]
  /\ loads_of (events (snd (request method url data st)))
     = loads_of (events st)
  /\ net (snd (request method url data st)) = n.
Proof.
  intros Hanswer. rewrite request_until_response, Hanswer.
  cbn [fst snd events net]. rewrite logs_of_app, loads_of_app. cbn.
  rewrite app_nil_r. repeat split.
Qed.

(** X2. When the transport answers, a call writes exactly two debug
    records, whatever happens afterwards: REQUEST with the method and the full
    URL before the transport call, and RESPONSE with the same two and
    [<Response [status]>] after it. *)
Theorem answered_call_logs_twice
        (st : State) (method url : pystr) (data : PyVal)
        (response : Response) (n : Net) :
  transport_answer st method url data = (inr response, n) ->
  logs_of (events (snd (request method url data st)))
  = logs_of (events st)
    ++ [(py "REQUEST [%s] (%s)", [method; base_url (self st) ++ url]);
        (py "RESPONSE [%s] (%s): %s",
         [method; base_url (self st) ++ url;
          py "<Response [" ++ int_repr (status_code response) ++ py "]>"])].
Proof.
  intros Hanswer. rewrite request_until_response, Hanswer.
  destruct (request_tail_quiet response
              (after_response st method url data response n)) as (Hlogs & _).
  cbv zeta in Hlogs |- *. rewrite Hlogs.
  unfold after_response. cbn [events]. rewrite logs_of_app. reflexivity.
Qed.


(** X4. Every method name other than the exact text ['get'] takes the body
    branch: no [params] are passed, and the body is [json.dumps] of the
    payload, a text that is never empty and holds printable ASCII only. *)
Theorem non_get_body_is_ascii_text
        (st : State) (method url : pystr) (data : PyVal) :
  method <> py "get" ->
  exists rq body,
    requests_of (events (snd (request method url data st)))
    = requests_of (events st) ++ [(session (self st), rq)]
    /\ rq_params rq = PyNone
    /\ rq_data rq = Some body
    /\ body = json_dumps data
    /\ body <> []
    /\ Forall printable body.
Proof.
  intros Hmethod.
  exists (sent_request (self st) method url data), (json_dumps data).
  split; [apply request_sends_once |].
  unfold sent_request. destruct (decide (method = py "get")); [contradiction |].
  cbn [rq_params rq_data]. repeat split.
  - apply json_dumps_nonempty.
  - apply printable_json_dumps.
Qed.

(** X5. An exception class raised by [request] for a response always
    declares that response's status code: the class is one of [errs], the
    status is not 204, and the response is the one the transport returned. *)
Theorem raised_class_declares_status
        (st : State) (method url : pystr) (data : PyVal)
        (cls : ErrorClass) (r : Response) :
  fst (request method url data st) = Raise (TraktException cls r) ->
  http_code cls = status_code r
  /\ status_code r <> 204
  /\ In cls errs
  /\ exists n, transport_answer st method url data = (inr r, n).
Proof.
  rewrite request_until_response.
  destruct (transport_answer st method url data) as [[e | response] n].
  - cbn [fst]. discriminate.
  - cbv zeta. destruct (Z.eqb_spec (status_code response) 204) as [H204 | H204].
    + cbn [fst]. discriminate.
    + unfold bind, raise_if_needed.
      destruct (error_map !! status_code response) as [cls' |] eqn:Hmap.
      * cbn [raise fst]. intros [= -> ->].
        apply stored_last_wins in Hmap as (before & after & Herrs & Hcode & _).
        repeat split; [exact Hcode | exact H204 | | exists n; reflexivity].
        fold errs in Herrs. rewrite Herrs. apply in_elt.
      * cbn [ret]. rewrite decode_response_run. cbn [fst].
        destruct (json_loads _) as [[e | e] | v]; discriminate.
Qed.

(** X6. A value returned by [request] has one of two origins: [None] for a
    response with status 204, or what [json.loads] made of the body of a
    response whose status is neither 204 nor registered. *)
Theorem returned_value_origin
        (st : State) (method url : pystr) (data : PyVal) (v : PyVal) :
  fst (request method url data st) = Return v ->
  exists response n,
    transport_answer st method url data = (inr response, n)
    /\ ((status_code response = 204 /\ v = PyNone)
        \/ (status_code response <> 204
            /\ error_map !! status_code response = None
            /\ json_loads (utf8_decode_ignore (content response)) = inr v)).
Proof.
  rewrite request_until_response.
  destruct (transport_answer st method url data) as [[e | response] n].
  - cbn [fst]. discriminate.
  - cbv zeta. intros Hout. exists response, n. split; [reflexivity |].
    destruct (Z.eqb_spec (status_code response) 204) as [H204 | H204].
    + left. cbn [fst] in Hout. injection Hout as <-. split; [exact H204 | reflexivity].
    + right. unfold bind, raise_if_needed in Hout.
      destruct (error_map !! status_code response) as [cls' |] eqn:Hmap.
      * cbn [raise fst] in Hout. discriminate Hout.
      * cbn [ret] in Hout. rewrite decode_response_run in Hout. cbn [fst] in Hout.
        destruct (json_loads _) as [[e | e] | v']; try discriminate Hout.
        injection Hout as ->. repeat split; assumption.
Qed.

(** X7. [delete] drops the decoded value but not the decoding: for a
    response whose status is neither 204 nor registered it returns [None] when
    [json.loads] returns, raises [BadResponseException] when [json.loads]
    raises [JSONDecodeError], an empty body included, and lets any other
    exception of [json.loads] through. *)
Theorem delete_decodes_before_discarding
        (st : State) (url : pystr) (response : Response) (n : Net) :
  transport_answer st (py "delete") url PyNone = (inr response, n) ->
  status_code response <> 204 ->
  error_map !! status_code response = None ->
  fst (delete url st)
  = match json_loads (utf8_decode_ignore (content response)) with
    | inr _ => Return PyNone
    | inl (DecodeError e) =>
        Raise (BadResponseException
                 (py "Unable to parse JSON: " ++ str_JSONDecodeError e))
    | inl (OtherError e) => Raise (OtherException e)
    end.
Proof.
  intros Hanswer H204 Hmap. rewrite delete_run, request_until_response, Hanswer.
  cbv zeta. apply Z.eqb_neq in H204. rewrite H204.
  unfold bind, raise_if_needed. rewrite Hmap. cbn [ret].
  rewrite decode_response_run.
  destruct (json_loads _) as [[e | e] | v]; reflexivity.
Qed.

End MoreDispatch.

(** ** More on the body text *)

Section BodyText.
Context `{Ext : Externals}.
Local Open Scope N_scope.

Ltac Zify.zify_post_hook ::= Z.to_euclidean_division_equations.

Ltac settle :=
  repeat match goal with
  | |- context [?a <? ?b] =>
      first [ rewrite (proj2 (N.ltb_lt a b)) by lia
            | rewrite (proj2 (N.ltb_ge a b)) by lia ]
  | |- context [?a <=? ?b] =>
      first [ rewrite (proj2 (N.leb_le a b)) by lia
            | rewrite (proj2 (N.leb_gt a b)) by lia ]
  | |- context [?a =? ?b] =>
      first [ rewrite (proj2 (N.eqb_eq a b)) by lia
            | rewrite (proj2 (N.eqb_neq a b)) by lia ]
  end; cbn [negb andb orb].

Lemma utf8_encode_app (t1 t2 : pystr) :
  utf8_encode (t1 ++ t2) = utf8_encode t1 ++ utf8_encode t2.
Proof. unfold utf8_encode. rewrite map_app. apply concat_app. Qed.

Lemma decode_skips_invalid_starts (junk rest : list byte) :
  Forall invalid_start junk ->
  utf8_decode_ignore (junk ++ rest) = utf8_decode_ignore rest.
Proof.
  induction 1 as [| b junk' Hb _ IH]; [reflexivity |].
  cbn [app]. rewrite decode_invalid_start by exact Hb. exact IH.
Qed.

(** The decoder's outcome depends on the response through the decoded text
    of its body only. *)
Lemma decode_response_same_text (r1 r2 : Response) (st : State) :
  utf8_decode_ignore (content r1) = utf8_decode_ignore (content r2) ->
  decode_response r1 st = decode_response r2 st.
Proof. intros Heq. rewrite !decode_response_run, Heq. reflexivity. Qed.

Lemma decode_cut_char (c : N) (k : nat) :
  is_scalar c = true ->
  (0 < k < length (utf8_encode_char c))%nat ->
  utf8_decode_ignore (take k (utf8_encode_char c)) = [].
Proof.
  intros Hc Hk. apply is_scalar_true in Hc.
  unfold utf8_encode_char in *.
  destruct (N.ltb_spec c 128);
    [| destruct (N.ltb_spec c 2048); [| destruct (N.ltb_spec c 65536)]];
    cbn [length] in Hk.
  - lia.
  - assert (k = 1%nat) as -> by lia. cbn [take].
    rewrite decode_cons. cbv zeta. rewrite !to_N_byte_of by lia.
    settle. reflexivity.
  - assert (k = 1 \/ k = 2)%nat as [-> | ->] by lia; cbn [take];
      rewrite decode_cons; cbv zeta; unfold is_continuation;
      rewrite !to_N_byte_of by lia.
    + settle. reflexivity.
    + destruct (N.ltb_spec (128 + (c / 64) mod 64) 160); settle; reflexivity.
  - assert (k = 1 \/ k = 2 \/ k = 3)%nat as [-> | [-> | ->]] by lia; cbn [take];
      rewrite decode_cons; cbv zeta; unfold is_continuation;
      rewrite !to_N_byte_of by lia.
    + settle. reflexivity.
    + destruct (N.ltb_spec (128 + (c / 4096) mod 64) 144); settle; reflexivity.
    + destruct (N.ltb_spec (128 + (c / 4096) mod 64) 144); settle; reflexivity.
Qed.

(** X8. A body that is the UTF-8 form of a text reaches [json.loads] as
    exactly that text, and the outcome of [decode_response] is that of
    [json.loads] on it. *)
Theorem well_formed_body_reaches_parser
        (response : Response) (st : State) (text : pystr) :
  Forall (fun c => is_scalar c = true) text ->
  content response = utf8_encode text ->
  loads_of (events (snd (decode_response response st)))
  = loads_of (events st) ++ [text]
  /\ fst (decode_response response st)
     = match json_loads text with
       | inr v => Return v
       | inl (DecodeError e) =>
           Raise (BadResponseException
                    (py "Unable to parse JSON: " ++ str_JSONDecodeError e))
       | inl (OtherError e) => Raise (OtherException e)
       end.
Proof.
  intros Htext Hcontent.
  assert (Hdec : utf8_decode_ignore (content response) = text).
  { rewrite Hcontent, <- (app_nil_r (utf8_encode text)).
    rewrite decode_encoded by exact Htext. apply app_nil_r. }
  rewrite decode_response_run, Hdec. cbn [fst snd events].
  rewrite loads_of_app. split; reflexivity.
Qed.

(** X9. Bytes that cannot start a UTF-8 sequence, standing between two
    well-formed parts of a body, do not change what [decode_response] does:
    the outcome and the events are those for the body without them. *)
Theorem stray_bytes_are_dropped
        (response : Response) (st : State)
        (before after : pystr) (junk : list byte) :
  Forall (fun c => is_scalar c = true) before ->
  Forall (fun c => is_scalar c = true) after ->
  Forall invalid_start junk ->
  content response = utf8_encode before ++ junk ++ utf8_encode after ->
  decode_response response st
  = decode_response (mkResponse (status_code response)
                                (utf8_encode (before ++ after))) st.
Proof.
  intros Hbefore Hafter Hjunk Hcontent.
  apply decode_response_same_text. cbn [content].
  rewrite Hcontent, utf8_encode_app.
  rewrite !decode_encoded by assumption.
  rewrite decode_skips_invalid_starts by exact Hjunk. reflexivity.
Qed.

(** X10. A body that ends in the middle of a multi-byte character is
    decoded as if it ended before that character. *)
Theorem cut_off_character_is_dropped
        (response : Response) (st : State) (text : pystr) (c : N) (k : nat) :
  Forall (fun c => is_scalar c = true) text ->
  is_scalar c = true ->
  (0 < k < length (utf8_encode_char c))%nat ->
  content response = utf8_encode text ++ take k (utf8_encode_char c) ->
  decode_response response st
  = decode_response (mkResponse (status_code response) (utf8_encode text)) st.
Proof.
  intros Htext Hc Hk Hcontent.
  apply decode_response_same_text. cbn [content].
  rewrite Hcontent, decode_encoded by exact Htext.
  rewrite decode_cut_char by assumption.
  rewrite <- (app_nil_r (utf8_encode text)).
  rewrite decode_encoded by exact Htext. reflexivity.
Qed.

(** X13. Decoding leniently is a projection: the response whose body is the
    UTF-8 form of the recovered text is decoded exactly like the original
    one. *)
Theorem lenient_decoding_is_stable (response : Response) (st : State) :
  utf8_decode_ignore (utf8_encode (utf8_decode_ignore (content response)))
  = utf8_decode_ignore (content response)
  /\ decode_response
       (mkResponse (status_code response)
                   (utf8_encode (utf8_decode_ignore (content response)))) st
     = decode_response response st.
Proof.
  assert (Hstable :
            utf8_decode_ignore
              (utf8_encode (utf8_decode_ignore (content response)))
            = utf8_decode_ignore (content response)).
  { rewrite <- (app_nil_r (utf8_encode _)).
    rewrite decode_encoded by apply decode_scalars. apply app_nil_r. }
  split; [exact Hstable |].
  apply decode_response_same_text. exact Hstable.
Qed.

End BodyText.

(** ** More on the registry *)

Section MoreRegistry.
Context `{Ext : Externals}.
Local Open Scope Z_scope.

Lemma stored_keys (l : list ErrorClass) (code : Z) :
  is_Some (foldl (fun m err => <[http_code err := err]> m)
                 (∅ : gmap Z ErrorClass) l !! code)
  <-> exists cls, In cls l /\ http_code cls = code.
Proof.
  induction l as [| x l' IH] using rev_ind.
  - cbn. rewrite lookup_empty. split.
    + intros [? H]. discriminate H.
    + intros (cls & [] & _).
  - rewrite foldl_app. cbn [foldl].
    destruct (decide (http_code x = code)) as [Hx | Hx].
    + rewrite Hx, lookup_insert_eq. split; [| eauto].
      intros _. exists x. split; [apply in_elt | exact Hx].
    + rewrite lookup_insert_ne by exact Hx. rewrite IH. split.
      * intros (cls & Hin & Hcode). exists cls. split; [| exact Hcode].
        apply in_or_app. left. exact Hin.
      * intros (cls & Hin & Hcode). exists cls. split; [| exact Hcode].
        apply in_app_or in Hin as [Hin | [-> | []]]; [exact Hin | contradiction].
Qed.

(** X12. A status code is a key of [error_map] exactly when some name of
    [errors.__all__] other than ['TraktException'] names a class declaring
    it. *)
Theorem registered_codes (code : Z) :
  is_Some (error_map !! code)
  <-> exists att,
        In att errors__all__
        /\ att <> py "TraktException"
        /\ http_code (errors_getattr att) = code.
Proof.
  unfold error_map. rewrite stored_keys. unfold errs. split.
  - intros (cls & Hin & Hcode).
    apply in_map_iff in Hin as (att & <- & Hatt).
    apply list_elem_of_In, list_elem_of_filter in Hatt as [Hne Hatt].
    exists att. repeat split; [apply list_elem_of_In | |]; assumption.
  - intros (att & Hin & Hne & Hcode).
    exists (errors_getattr att). split; [| exact Hcode].
    apply in_map, list_elem_of_In, list_elem_of_filter.
    split; [exact Hne | apply list_elem_of_In; exact Hin].
Qed.

End MoreRegistry.

(** * Further runs on the scripted instance *)

Section MoreRuns.
Import Scripted.
Local Open Scope Z_scope.

(** A [post] that finds no answer prepared. *)
Lemma transport_error_propagates_witness :
  let st := start externals tt [] in
  @transport_answer externals st (py "post") (py "scrobble/start") PyNone
  = (inl (py "ConnectionError"), [])
  /\ (fst (@request externals (py "post") (py "scrobble/start") PyNone st)
      = Raise (@TransportExc externals (py "ConnectionError"))
      /\ logs_of (events (snd (@request externals (py "post")
                                        (py "scrobble/start") PyNone st)))
         = logs_of (events st)
           ++ [(py "REQUEST [%s] (%s)",
                [py "post"; base_url (self st) ++ py "scrobble/start"])]
      /\ loads_of (events (snd (@request externals (py "post")
                                         (py "scrobble/start") PyNone st)))
         = loads_of (events st)
      /\ net (snd (@request externals (py "post") (py "scrobble/start")
                            PyNone st)) = []).
Proof.
  intros st.
  assert (H1 : @transport_answer externals st (py "post") (py "scrobble/start")
                                 PyNone
               = (inl (py "ConnectionError"), []))
    by reflexivity.
  split; [exact H1 |].
  exact (@transport_error_propagates externals st (py "post")
           (py "scrobble/start") PyNone (py "ConnectionError") [] H1).
Defined.

(** A [get] answered with 503, which the module does not register. *)
Lemma answered_call_logs_twice_witness :
  let response := mkResponse 503 [] in
  let st := start externals tt [inr response] in
  @transport_answer externals st (py "get") (py "shows/trending") PyNone
  = (inr response, [])
  /\ logs_of (events (snd (@request externals (py "get") (py "shows/trending")
                                    PyNone st)))
     = logs_of (events st)
       ++ [(py "REQUEST [%s] (%s)",
            [py "get"; base_url (self st) ++ py "shows/trending"]);
           (py "RESPONSE [%s] (%s): %s",
            [py "get"; base_url (self st) ++ py "shows/trending";
             py "<Response [" ++ int_repr (status_code response) ++ py "]>"])].
Proof.
  intros response st.
  assert (H1 : @transport_answer externals st (py "get") (py "shows/trending")
                                 PyNone = (inr response, []))
    by reflexivity.
  split; [exact H1 |].
  exact (@answered_call_logs_twice externals st (py "get") (py "shows/trending")
           PyNone response [] H1).
Defined.

(** The method ['GET'] in capitals is not ['get']: a payload with a
    character outside ASCII goes into the body, escaped. *)
Lemma non_get_body_is_ascii_text_witness :
  let st := start externals tt [] in
  let data := PyDict [(py "query", PyStr [233%N; 128512%N])] in
  py "GET" <> py "get"
  /\ exists rq body,
       requests_of (events (snd (@request externals (py "GET") (py "search")
                                          data st)))
       = requests_of (events st) ++ [(session (self st), rq)]
       /\ rq_params rq = PyNone
       /\ rq_data rq = Some body
       /\ body = json_dumps data
       /\ body <> []
       /\ Forall printable body.
Proof.
  intros st data.
  assert (H1 : py "GET" <> py "get") by (vm_compute; discriminate).
  split; [exact H1 |].
  exact (@non_get_body_is_ascii_text externals st (py "GET") (py "search") data H1).
Defined.

(** A [get] answered with 404. *)
Lemma raised_class_declares_status_witness :
  let response := mkResponse 404 [] in
  let st := start externals tt [inr response] in
  fst (@request externals (py "get") (py "movies/missing") PyNone st)
  = Raise (TraktException NotFoundException_cls response)
  /\ (http_code NotFoundException_cls = status_code response
      /\ status_code response <> 204
      /\ In NotFoundException_cls (@errs externals)
      /\ exists n, @transport_answer externals st (py "get")
                                     (py "movies/missing") PyNone
                   = (inr response, n)).
Proof.
  intros response st.
  assert (H1 : fst (@request externals (py "get") (py "movies/missing") PyNone st)
               = Raise (TraktException NotFoundException_cls response))
    by (vm_compute; reflexivity).
  split; [exact H1 |].
  exact (@raised_class_declares_status externals st (py "get")
           (py "movies/missing") PyNone NotFoundException_cls response H1).
Defined.

(** A [get] answered with 200 and the body [{"a": 1}]. *)
Lemma returned_value_origin_witness :
  let response := mkResponse 200 [x7b; x22; x61; x22; x3a; x20; x31; x7d] in
  let st := start externals tt [inr response] in
  let v := PyDict [(py "a", PyInt 1)] in
  fst (@request externals (py "get") (py "users/settings") PyNone st) = Return v
  /\ exists response' n,
       @transport_answer externals st (py "get") (py "users/settings") PyNone
       = (inr response', n)
       /\ ((status_code response' = 204 /\ v = PyNone)
           \/ (status_code response' <> 204
               /\ @error_map externals !! status_code response' = None
               /\ @json_loads externals (utf8_decode_ignore (content response'))
                  = inr v)).
Proof.
  intros response st v.
  assert (H1 : fst (@request externals (py "get") (py "users/settings") PyNone st)
               = Return v)
    by (vm_compute; reflexivity).
  split; [exact H1 |].
  exact (@returned_value_origin externals st (py "get") (py "users/settings")
           PyNone v H1).
Defined.

(** A [delete] answered with 200 and an empty body raises. *)
Lemma delete_decodes_before_discarding_witness :
  let response := mkResponse 200 [] in
  let st := start externals tt [inr response] in
  @transport_answer externals st (py "delete") (py "users/me/lists/1") PyNone
  = (inr response, [])
  /\ status_code response <> 204
  /\ @error_map externals !! status_code response = None
  /\ fst (@delete externals (py "users/me/lists/1") st)
     = Raise (BadResponseException
                (py "Unable to parse JSON: Expecting value: line 1 column 1 (char 0)")).
Proof.
  intros response st.
  assert (H1 : @transport_answer externals st (py "delete")
                                 (py "users/me/lists/1") PyNone
               = (inr response, []))
    by reflexivity.
  assert (H2 : status_code response <> 204) by (cbn; lia).
  assert (H3 : @error_map externals !! status_code response = None)
    by (vm_compute; reflexivity).
  split; [exact H1 |]. split; [exact H2 |]. split; [exact H3 |].
  exact (@delete_decodes_before_discarding externals st (py "users/me/lists/1")
           response [] H1 H2 H3).
Defined.

(** A body holding the two bytes of U+00E9. *)
Lemma well_formed_body_reaches_parser_witness :
  let response := mkResponse 200 [xc3; xa9] in
  let st := start externals tt [] in
  let text := [233%N] in
  Forall (fun c => is_scalar c = true) text
  /\ content response = utf8_encode text
  /\ loads_of (events (snd (@decode_response externals response st)))
     = loads_of (events st) ++ [text]
  /\ fst (@decode_response externals response st)
     = match @json_loads externals text with
       | inr v => Return v
       | inl (DecodeError e) =>
           Raise (BadResponseException
                    (py "Unable to parse JSON: " ++ str_JSONDecodeError e))
       | inl (OtherError e) => Raise (OtherException e)
       end.
Proof.
  intros response st text.
  assert (H1 : Forall (fun c => is_scalar c = true) text)
    by (repeat constructor).
  assert (H2 : content response = utf8_encode text) by reflexivity.
  split; [exact H1 |]. split; [exact H2 |].
  exact (@well_formed_body_reaches_parser externals response st text H1 H2).
Defined.

(** The document [{}] with [FF] and [80] between its two characters. *)
Lemma stray_bytes_are_dropped_witness :
  let response := mkResponse 200 [x7b; xff; x80; x7d] in
  let st := start externals tt [] in
  Forall (fun c => is_scalar c = true) (py "{")
  /\ Forall (fun c => is_scalar c = true) (py "}")
  /\ Forall invalid_start [xff; x80]
  /\ content response = utf8_encode (py "{") ++ [xff; x80] ++ utf8_encode (py "}")
  /\ @decode_response externals response st
     = @decode_response externals
         (mkResponse (status_code response) (utf8_encode (py "{" ++ py "}"))) st.
Proof.
  intros response st.
  assert (H1 : Forall (fun c => is_scalar c = true) (py "{"))
    by (repeat constructor).
  assert (H2 : Forall (fun c => is_scalar c = true) (py "}"))
    by (repeat constructor).
  assert (H3 : Forall invalid_start [xff; x80]).
  { repeat (apply List.Forall_cons || apply List.Forall_nil);
      unfold invalid_start; cbn; lia. }
  assert (H4 : content response
               = utf8_encode (py "{") ++ [xff; x80] ++ utf8_encode (py "}"))
    by reflexivity.
  split; [exact H1 |]. split; [exact H2 |]. split; [exact H3 |].
  split; [exact H4 |].
  exact (@stray_bytes_are_dropped externals response st (py "{") (py "}")
           [xff; x80] H1 H2 H3 H4).
Defined.

(** The document [{}] followed by the first two of the three bytes of
    U+20AC. *)
Lemma cut_off_character_is_dropped_witness :
  let response := mkResponse 200 [x7b; x7d; xe2; x82] in
  let st := start externals tt [] in
  Forall (fun c => is_scalar c = true) (py "{}")
  /\ is_scalar 8364 = true
  /\ (0 < 2 < length (utf8_encode_char 8364))%nat
  /\ content response = utf8_encode (py "{}") ++ take 2 (utf8_encode_char 8364)
  /\ @decode_response externals response st
     = @decode_response externals
         (mkResponse (status_code response) (utf8_encode (py "{}"))) st.
Proof.
  intros response st.
  assert (H1 : Forall (fun c => is_scalar c = true) (py "{}"))
    by (repeat constructor).
  assert (H2 : is_scalar 8364 = true) by reflexivity.
  assert (H3 : (0 < 2 < length (utf8_encode_char 8364))%nat) by (cbn; lia).
  assert (H4 : content response
               = utf8_encode (py "{}") ++ take 2 (utf8_encode_char 8364))
    by reflexivity.
  split; [exact H1 |]. split; [exact H2 |]. split; [exact H3 |].
  split; [exact H4 |].
  exact (@cut_off_character_is_dropped externals response st (py "{}") 8364%N 2
           H1 H2 H3 H4).
Defined.

(** The module with one class per code registers [ProcessException] under
    422. *)
Lemma error_map_complete_when_distinct_witness :
  NoDup (map http_code (@errs externals))
  /\ In ProcessException_cls (@errs externals)
  /\ @error_map externals !! http_code ProcessException_cls
     = Some ProcessException_cls.
Proof.
  assert (H1 : NoDup (map http_code (@errs externals))).
  { change (map http_code (@errs externals)) with [-1; 404; 422].
    repeat (apply NoDup_cons_2;
            [intros Hin; apply list_elem_of_In in Hin; cbn in Hin;
             intuition discriminate |]).
    apply NoDup_nil_2. }
  assert (H2 : In ProcessException_cls (@errs externals))
    by (vm_compute; tauto).
  split; [exact H1 |]. split; [exact H2 |].
  exact (@error_map_complete_when_distinct externals ProcessException_cls H1 H2).
Defined.

End MoreRuns.
